(** * base-model-package: the three interface classes

    A shallow embedding of [base_model/base_model.py],
    [base_model/base_preprocessor.py] and [base_model/base_postprocessor.py].

    Python objects live in a store that maps references to a class tag and an
    attribute dictionary; a method body is a computation in a state and
    exception monad over that store.  Annotations such as [list[float]] or
    [str] are not enforced by Python, so every parameter ranges over all
    values. *)

From Stdlib Require Import ZArith String List.
From Stdlib Require Import Floats.SpecFloat.
From stdpp Require Import base option gmap strings list fin_maps.

Open Scope string_scope.

(** ** Values *)

(** References to objects in the store. *)
Abbreviation loc := positive (only parsing).

(** The Python values that can reach the three classes.  A [float] is kept as
    its IEEE-754 datum; the code never computes with one. *)
#[warnings="-register-all"]
Inductive value : Type :=
  | VNone
  | VBool (b : bool)
  | VInt (n : Z)
  | VFloat (f : spec_float)
  | VStr (s : string)
  | VList (xs : list value)
  | VTuple (xs : list value)
  | VObj (l : loc).

(** A waveform as the annotations describe it: a list of floats. *)
Definition wave_of (samples : list spec_float) : value :=
  VList (map VFloat samples).

(** ** Exceptions *)

(** Built-in exception classes; [NotImplementedError] is the only one the
    source names. *)
Inductive exn_class : Type :=
  | BaseException
  | Exception
  | ArithmeticError
  | AttributeError
  | LookupError
  | RuntimeError
  | NotImplementedError
  | TypeError
  | ValueError.

(** An exception instance: its class and the arguments it was built from. *)
Record exn : Type := mk_exn { exn_cls : exn_class; exn_args : list value }.

(** ** Objects and the store *)

Inductive class_name : Type :=
  | ClsBaseModel
  | ClsBasePreprocess
  | ClsBasePostprocess.

(** An instance: its class and its [__dict__]. *)
Record object : Type := mk_object {
  obj_class : class_name;
  obj_dict : gmap string value
}.

Abbreviation heap := (gmap loc object) (only parsing).

(** ** The monad of method bodies *)

(** How a call ends: it returns a value or it raises. *)
Inductive result (A : Type) : Type :=
  | Ok (a : A)
  | Raise (e : exn).
Arguments Ok {A} a.
Arguments Raise {A} e.

(** A computation reads the store and yields an outcome and the store it
    leaves behind; the effects made before a [raise] stay. *)
Definition M (A : Type) : Type := heap -> result A * heap.

Definition run {A} (m : M A) (h : heap) : result A * heap := m h.

#[global] Instance M_ret : MRet M := fun A a h => (Ok a, h).

#[global] Instance M_bind : MBind M := fun A B k m h =>
  match m h with
  | (Ok a, h') => k a h'
  | (Raise e, h') => (Raise e, h')
  end.

(** [raise C(arg)] *)
Definition raise {A} (c : exn_class) (arg : string) : M A :=
  fun h => (Raise (mk_exn c [VStr arg]), h).

(** [object.__new__(cls)]: a new instance with an empty [__dict__] at a
    reference not in use. *)
Definition new_object (c : class_name) : M loc :=
  fun h => let l := fresh (dom h) in (Ok l, <[l := mk_object c ∅]> h).

(** [self.name = v]: an entry of the instance's [__dict__] is set.  A
    reference always denotes a live object, so the store is left alone at a
    reference it does not hold. *)
Definition setattr (self : loc) (name : string) (v : value) : M unit :=
  fun h =>
    (Ok tt,
     alter (fun o => mk_object (obj_class o) (<[name := v]> (obj_dict o))) self h).

(** Reading an attribute back out of the store (used by the statements, not
    by the source). *)
Definition getattr_of (h : heap) (self : loc) (name : string) : option value :=
  o ← h !! self; obj_dict o !! name.

(** [cls(args)]: allocate, run [__init__], hand back the instance. *)
Definition construct (c : class_name) (init : loc -> M value) : M loc :=
  self ← new_object c; _ ← init self; mret self.

(** ** base_model.py *)

Module BaseModel.

(** [def __init__(self, path_to_model: str) -> None:
       self.path: str = path_to_model] *)
Definition __init__ (self : loc) (path_to_model : value) : M value :=
  _ ← setattr self "path" path_to_model; mret VNone.

(** The default of [sample_rate]. *)
Definition sample_rate_default : value := VInt 16000.

(** [def predict(self, wave, sample_rate=16000):
       raise NotImplementedError(...)], with both parameters bound. *)
Definition predict (self : loc) (wave sample_rate : value) : M value :=
  raise NotImplementedError "Subclasses must implement the `predict` method.".

(** A call site of [predict]: the second argument may be left out, and
    the parameter then takes its default. *)
Definition call_predict (self : loc) (wave : value) (sample_rate : option value)
  : M value :=
  predict self wave (default sample_rate_default sample_rate).

(** [BaseModel(path_to_model)] *)
Definition new (path_to_model : value) : M loc :=
  construct ClsBaseModel (fun self => __init__ self path_to_model).

End BaseModel.

(** ** base_preprocessor.py *)

Module BasePreprocess.

(** [def __init__(self) -> None: pass] *)
Definition __init__ (self : loc) : M value := mret VNone.

(** [def process(self, wave): raise NotImplementedError(...)] *)
Definition process (self : loc) (wave : value) : M value :=
  raise NotImplementedError "Subclasses must implement the `process` method.".

(** [BasePreprocess()] *)
Definition new : M loc := construct ClsBasePreprocess __init__.

End BasePreprocess.

(** ** base_postprocessor.py *)

Module BasePostprocess.

(** [def __init__(self) -> None: pass] *)
Definition __init__ (self : loc) : M value := mret VNone.

(** [def process(self, data): raise NotImplementedError(...)] *)
Definition process (self : loc) (data : value) : M value :=
  raise NotImplementedError "Subclasses must implement the `process` method.".

(** [BasePostprocess()] *)
Definition new : M loc := construct ClsBasePostprocess __init__.

End BasePostprocess.

(** The failure both [process] methods and [predict] end in. *)
Definition not_implemented (msg : string) : exn :=
  mk_exn NotImplementedError [VStr msg].

(** ** Clients

    What code that imports the package can do with the three classes:
    build instances and call the declared methods. *)
Inductive op : Type :=
  | NewBaseModel (path_to_model : value)
  | NewBasePreprocess
  | NewBasePostprocess
  | Predict (self : loc) (wave : value) (sample_rate : option value)
  | PreProcess (self : loc) (wave : value)
  | PostProcess (self : loc) (data : value).

Definition step (o : op) : M value :=
  match o with
  | NewBaseModel p => m ← BaseModel.new p; mret (VObj m)
  | NewBasePreprocess => m ← BasePreprocess.new; mret (VObj m)
  | NewBasePostprocess => m ← BasePostprocess.new; mret (VObj m)
  | Predict self wave sample_rate => BaseModel.call_predict self wave sample_rate
  | PreProcess self wave => BasePreprocess.process self wave
  | PostProcess self data => BasePostprocess.process self data
  end.

(** A client that performs the operations one after the other and carries on
    after a failure (each call sits in its own [try]); the store at the end. *)
Definition exec (ops : list op) (h : heap) : heap :=
  foldl (fun h o => snd (run (step o) h)) h ops.

(** The value a call returned, if it returned. *)
Definition returned {A} (r : result A) : option A :=
  match r with
  | Ok a => Some a
  | Raise _ => None
  end.

(** The class of the exception a call ended in, if it raised. *)
Definition raised_class {A} (r : result A) : option exn_class :=
  match r with
  | Ok _ => None
  | Raise e => Some (exn_cls e)
  end.

(** Whether an operation is a call of one of the three constructors. *)
Definition is_construction (o : op) : bool :=
  match o with
  | NewBaseModel _ | NewBasePreprocess | NewBasePostprocess => true
  | Predict _ _ _ | PreProcess _ _ | PostProcess _ _ => false
  end.

(** How many instances a client builds. *)
Fixpoint constructions (ops : list op) : nat :=
  match ops with
  | [] => 0
  | o :: ops => (if is_construction o then 1 else 0) + constructions ops
  end.

Example predict_on_fresh_instance :
  run (m ← BaseModel.new (VStr "model.bin");
       BaseModel.predict m (wave_of [S754_zero false]) (VInt 8000)) ∅
  = (Raise (not_implemented "Subclasses must implement the `predict` method."),
     {[ 1%positive := mk_object ClsBaseModel {[ "path" := VStr "model.bin" ]} ]}).
Proof. vm_compute. reflexivity. Qed.

Example exec_keeps_going :
  exec [NewBaseModel (VStr "a"); Predict 1 VNone None; NewBasePreprocess;
        PreProcess 2 (wave_of []); PostProcess 1 (VInt 3)] ∅
  = {[ 1%positive := mk_object ClsBaseModel {[ "path" := VStr "a" ]};
       2%positive := mk_object ClsBasePreprocess ∅ ]}.
Proof. vm_compute. reflexivity. Qed.

(** ** How the constructors and the methods run *)

Lemma run_bind {A B} (m : M A) (k : A → M B) (h : heap) :
  run (m ≫= k) h
  = match run m h with
    | (Ok a, h') => run (k a) h'
    | (Raise e, h') => (Raise e, h')
    end.
Proof. reflexivity. Qed.

Section Runs.
Context (h : heap).

Lemma new_object_fresh : h !! fresh (dom h) = None.
Proof. apply not_elem_of_dom, is_fresh. Qed.

Lemma run_BaseModel_new (v : value) :
  run (BaseModel.new v) h
  = (Ok (fresh (dom h)),
     <[fresh (dom h) := mk_object ClsBaseModel {[ "path" := v ]}]> h).
Proof.
  unfold run, BaseModel.new, construct, BaseModel.__init__, new_object, setattr.
  unfold mbind, M_bind, mret, M_ret. simpl.
  rewrite alter_insert_eq. simpl. by rewrite insert_empty.
Qed.

Lemma run_BasePreprocess_new :
  run BasePreprocess.new h
  = (Ok (fresh (dom h)), <[fresh (dom h) := mk_object ClsBasePreprocess ∅]> h).
Proof. reflexivity. Qed.

Lemma run_BasePostprocess_new :
  run BasePostprocess.new h
  = (Ok (fresh (dom h)), <[fresh (dom h) := mk_object ClsBasePostprocess ∅]> h).
Proof. reflexivity. Qed.

Lemma run_predict self wave sample_rate :
  run (BaseModel.predict self wave sample_rate) h
  = (Raise (not_implemented "Subclasses must implement the `predict` method."), h).
Proof. reflexivity. Qed.

Lemma run_call_predict self wave sample_rate :
  run (BaseModel.call_predict self wave sample_rate) h
  = (Raise (not_implemented "Subclasses must implement the `predict` method."), h).
Proof. reflexivity. Qed.

Lemma run_pre_process self wave :
  run (BasePreprocess.process self wave) h
  = (Raise (not_implemented "Subclasses must implement the `process` method."), h).
Proof. reflexivity. Qed.

Lemma run_post_process self data :
  run (BasePostprocess.process self data) h
  = (Raise (not_implemented "Subclasses must implement the `process` method."), h).
Proof. reflexivity. Qed.

(** An operation either leaves the store as it is or adds one object at a
    reference that was free. *)
Lemma step_store (o : op) :
  snd (run (step o) h) = h
  ∨ ∃ obj, snd (run (step o) h) = <[fresh (dom h) := obj]> h.
Proof.
  destruct o as [p| | |self wave sr|self wave|self data]; unfold step.
  - right. exists (mk_object ClsBaseModel {[ "path" := p ]}).
    by rewrite run_bind, run_BaseModel_new.
  - right. by eexists.
  - right. by eexists.
  - by left.
  - by left.
  - by left.
Qed.

(** So an object that is in the store stays as it is. *)
Lemma step_keeps_object (o : op) (l : loc) (obj : object) :
  h !! l = Some obj → snd (run (step o) h) !! l = Some obj.
Proof.
  intros Hl. destruct (step_store o) as [-> | [obj' ->]]; [done|].
  rewrite lookup_insert_ne; [done|].
  intros <-. by rewrite new_object_fresh in Hl.
Qed.

End Runs.

Lemma exec_keeps_object (ops : list op) :
  ∀ (h : heap) (l : loc) (obj : object),
    h !! l = Some obj → exec ops h !! l = Some obj.
Proof.
  induction ops as [|o ops IH]; intros h l obj Hl; [done|].
  apply IH. by apply step_keeps_object.
Qed.

Lemma getattr_of_insert (h : heap) (l : loc) (c : class_name) (d : gmap string value)
    (name : string) :
  getattr_of (<[l := mk_object c d]> h) l name = d !! name.
Proof. unfold getattr_of. by rewrite lookup_insert_eq. Qed.

(** ** The operations fail with "not implemented" *)

(** C1: for every wave and every sample rate, [predict] on a [BaseModel]
    instance ends by raising [NotImplementedError] and returns no value.  This
    holds at every reference and in every store, and so for an instance that
    comes straight from the constructor, whatever path it was given. *)
Theorem predict_raises_not_implemented
    (h : heap) (self : loc) (wave sample_rate : value) :
  run (BaseModel.predict self wave sample_rate) h
  = (Raise (not_implemented "Subclasses must implement the `predict` method."), h)
  ∧ raised_class (fst (run (BaseModel.predict self wave sample_rate) h))
    = Some NotImplementedError
  ∧ returned (fst (run (BaseModel.predict self wave sample_rate) h)) = None
  ∧ ∀ path_to_model : value,
      fst (run (m ← BaseModel.new path_to_model;
                BaseModel.predict m wave sample_rate) h)
      = Raise (not_implemented "Subclasses must implement the `predict` method.").
Proof.
  do 3 (split; [reflexivity|]).
  intros p. by rewrite run_bind, run_BaseModel_new.
Qed.

(** C2: for every wave, [process] on a [BasePreprocess] instance ends by
    raising [NotImplementedError]; it does not return normally. *)
Theorem preprocess_raises_not_implemented (h : heap) (self : loc) (wave : value) :
  run (BasePreprocess.process self wave) h
  = (Raise (not_implemented "Subclasses must implement the `process` method."), h)
  ∧ raised_class (fst (run (BasePreprocess.process self wave) h))
    = Some NotImplementedError
  ∧ returned (fst (run (BasePreprocess.process self wave) h)) = None
  ∧ fst (run (m ← BasePreprocess.new; BasePreprocess.process m wave) h)
    = Raise (not_implemented "Subclasses must implement the `process` method.").
Proof. by repeat split. Qed.

(** C3: for every input value, of any type, [process] on a
    [BasePostprocess] instance ends by raising [NotImplementedError]; it does
    not return normally. *)
Theorem postprocess_raises_not_implemented (h : heap) (self : loc) (data : value) :
  run (BasePostprocess.process self data) h
  = (Raise (not_implemented "Subclasses must implement the `process` method."), h)
  ∧ raised_class (fst (run (BasePostprocess.process self data) h))
    = Some NotImplementedError
  ∧ returned (fst (run (BasePostprocess.process self data) h)) = None
  ∧ fst (run (m ← BasePostprocess.new; BasePostprocess.process m data) h)
    = Raise (not_implemented "Subclasses must implement the `process` method.").
Proof. by repeat split. Qed.

(** ** The state of a model *)

(** C4: for every string [p], [BaseModel(p)] returns a new instance whose
    [path] attribute is exactly [p]; the store gains that one object with that
    one attribute and is otherwise as before.  The class never reads the
    attribute: with any other value in its place, or with none, [predict]
    ends the same way. *)
Theorem constructor_stores_path (h : heap) (p : string) :
  ∃ m : loc,
    h !! m = None
    ∧ run (BaseModel.new (VStr p)) h
      = (Ok m, <[m := mk_object ClsBaseModel {[ "path" := VStr p ]}]> h)
    ∧ getattr_of (snd (run (BaseModel.new (VStr p)) h)) m "path" = Some (VStr p)
    ∧ ∀ (d : gmap string value) (wave sample_rate : value),
        fst (run (BaseModel.predict m wave sample_rate)
                 (<[m := mk_object ClsBaseModel d]> h))
        = fst (run (BaseModel.predict m wave sample_rate)
                   (snd (run (BaseModel.new (VStr p)) h))).
Proof.
  exists (fresh (dom h)). rewrite run_BaseModel_new. simpl.
  split; [apply new_object_fresh|]. split; [done|]. split; [|done].
  by rewrite getattr_of_insert, lookup_singleton_eq.
Qed.

(** C5: the path an instance was built with stays.  After [BaseModel(p)],
    a call of [predict] fails and leaves the store as it was, and after any
    sequence of operations of the package (building further instances,
    calling [predict] or [process] on any instance) the instance still
    holds [p] as its [path], and nothing else. *)
Theorem path_is_invariant (h : heap) (p : value) :
  ∃ (m : loc) (h1 : heap),
    run (BaseModel.new p) h = (Ok m, h1)
    ∧ getattr_of h1 m "path" = Some p
    ∧ (∀ (self : loc) (wave : value) (sample_rate : option value),
         snd (run (BaseModel.call_predict self wave sample_rate) h1) = h1)
    ∧ ∀ ops : list op,
        exec ops h1 !! m = Some (mk_object ClsBaseModel {[ "path" := p ]})
        ∧ getattr_of (exec ops h1) m "path" = Some p.
Proof.
  eexists _, _. split; [apply run_BaseModel_new|].
  split; [by rewrite getattr_of_insert, lookup_singleton_eq|].
  split; [done|]. intros ops.
  assert (exec ops (<[fresh (dom h) := mk_object ClsBaseModel {[ "path" := p ]}]> h)
            !! fresh (dom h)
          = Some (mk_object ClsBaseModel {[ "path" := p ]})) as Hm.
  { apply exec_keeps_object, lookup_insert_eq. }
  split; [done|]. unfold getattr_of. rewrite Hm. simpl. apply lookup_singleton_eq.
Qed.

(** C6: how [predict] ends depends neither on the path the instance was
    built with nor on the arguments: two instances built with any two paths,
    in any two stores, called with any waves and sample rates (given or left
    out), end in the same failure, and that failure is the
    [NotImplementedError] of [predict]; the same holds at any two
    references. *)
Theorem predict_outcome_independent
    (h1 h2 : heap) (p1 p2 w1 w2 : value) (sr1 sr2 : option value) :
  fst (run (m ← BaseModel.new p1; BaseModel.call_predict m w1 sr1) h1)
  = fst (run (m ← BaseModel.new p2; BaseModel.call_predict m w2 sr2) h2)
  ∧ fst (run (m ← BaseModel.new p1; BaseModel.call_predict m w1 sr1) h1)
    = Raise (not_implemented "Subclasses must implement the `predict` method.")
  ∧ ∀ self1 self2 : loc,
      fst (run (BaseModel.call_predict self1 w1 sr1) h1)
      = fst (run (BaseModel.call_predict self2 w2 sr2) h2)
      ∧ fst (run (BaseModel.call_predict self1 w1 sr1) h1)
        = Raise (not_implemented "Subclasses must implement the `predict` method.")
      ∧ raised_class (fst (run (BaseModel.call_predict self1 w1 sr1) h1))
        = Some NotImplementedError.
Proof.
  rewrite !run_bind, !run_BaseModel_new. cbn beta iota.
  rewrite !run_call_predict. split; [done|]. split; [done|].
  intros self1 self2. by rewrite !run_call_predict.
Qed.

(** ** The processors are stateless *)

(** C7: [BasePreprocess()] and [BasePostprocess()] take no argument and
    store nothing: the new instance has an empty attribute dictionary, so two
    instances of one class, built in any two stores, hold the same state and
    answer [process] alike; [process] leaves the store as it is and ends the
    same way in every store. *)
Theorem processors_hold_no_state (h1 h2 : heap) :
  (∃ a b : loc,
     h1 !! a = None ∧ h2 !! b = None
     ∧ run BasePreprocess.new h1 = (Ok a, <[a := mk_object ClsBasePreprocess ∅]> h1)
     ∧ run BasePreprocess.new h2 = (Ok b, <[b := mk_object ClsBasePreprocess ∅]> h2)
     ∧ snd (run BasePreprocess.new h1) !! a = snd (run BasePreprocess.new h2) !! b
     ∧ ∀ wave : value,
         fst (run (BasePreprocess.process a wave) (snd (run BasePreprocess.new h1)))
         = fst (run (BasePreprocess.process b wave) (snd (run BasePreprocess.new h2))))
  ∧ (∃ a b : loc,
     h1 !! a = None ∧ h2 !! b = None
     ∧ run BasePostprocess.new h1 = (Ok a, <[a := mk_object ClsBasePostprocess ∅]> h1)
     ∧ run BasePostprocess.new h2 = (Ok b, <[b := mk_object ClsBasePostprocess ∅]> h2)
     ∧ snd (run BasePostprocess.new h1) !! a = snd (run BasePostprocess.new h2) !! b
     ∧ ∀ data : value,
         fst (run (BasePostprocess.process a data) (snd (run BasePostprocess.new h1)))
         = fst (run (BasePostprocess.process b data) (snd (run BasePostprocess.new h2))))
  ∧ ∀ (self : loc) (x : value),
      snd (run (BasePreprocess.process self x) h1) = h1
      ∧ snd (run (BasePostprocess.process self x) h1) = h1
      ∧ fst (run (BasePreprocess.process self x) h1)
        = fst (run (BasePreprocess.process self x) h2)
      ∧ fst (run (BasePostprocess.process self x) h1)
        = fst (run (BasePostprocess.process self x) h2).
Proof.
  split; [|split; [|done]].
  - exists (fresh (dom h1)), (fresh (dom h2)).
    rewrite !run_BasePreprocess_new. simpl.
    do 2 (split; [apply new_object_fresh|]). do 2 (split; [done|]).
    split; [|done]. by rewrite !lookup_insert_eq.
  - exists (fresh (dom h1)), (fresh (dom h2)).
    rewrite !run_BasePostprocess_new. simpl.
    do 2 (split; [apply new_object_fresh|]). do 2 (split; [done|]).
    split; [|done]. by rewrite !lookup_insert_eq.
Qed.

(** ** Failures and construction *)

(** C8: whichever operation of the package is performed, on whatever input
    and in whatever store, if it raises then the exception is a
    [NotImplementedError] (and the store is as before): no other error can
    come out of [predict] or of either [process]. *)
Theorem only_not_implemented_is_raised (o : op) (h h' : heap) (e : exn) :
  run (step o) h = (Raise e, h') →
  exn_cls e = NotImplementedError ∧ h' = h.
Proof.
  destruct o as [p| | |self wave sr|self wave|self data]; unfold step.
  - by rewrite run_bind, run_BaseModel_new.
  - by rewrite run_bind, run_BasePreprocess_new.
  - by rewrite run_bind, run_BasePostprocess_new.
  - rewrite run_call_predict. by intros [= <- <-].
  - rewrite run_pre_process. by intros [= <- <-].
  - rewrite run_post_process. by intros [= <- <-].
Qed.

Lemma only_not_implemented_is_raised_witness :
  run (step (PostProcess 1 (VInt 0))) ∅
  = (Raise (not_implemented "Subclasses must implement the `process` method."), ∅)
  ∧ exn_cls (not_implemented "Subclasses must implement the `process` method.")
    = NotImplementedError
  ∧ (∅ : gmap positive object) = ∅.
Proof.
  split; [reflexivity|].
  apply (only_not_implemented_is_raised (PostProcess 1 (VInt 0)) ∅ ∅).
  reflexivity.
Defined.

(** C9: construction never fails.  [BaseModel(v)] returns an instance for
    every argument [v], a string or not, with [v] stored as it is; the
    constructors of [BasePreprocess] and [BasePostprocess] always return an
    instance. *)
Theorem construction_never_fails (h : heap) (v : value) :
  (∃ m : loc,
     run (BaseModel.new v) h
     = (Ok m, <[m := mk_object ClsBaseModel {[ "path" := v ]}]> h))
  ∧ (∃ m : loc,
     run BasePreprocess.new h = (Ok m, <[m := mk_object ClsBasePreprocess ∅]> h))
  ∧ (∃ m : loc,
     run BasePostprocess.new h = (Ok m, <[m := mk_object ClsBasePostprocess ∅]> h))
  ∧ raised_class (fst (run (BaseModel.new v) h)) = None
  ∧ raised_class (fst (run BasePreprocess.new h)) = None
  ∧ raised_class (fst (run BasePostprocess.new h)) = None.
Proof.
  rewrite run_BaseModel_new, run_BasePreprocess_new, run_BasePostprocess_new.
  repeat split; by eexists.
Qed.

(** C10: a call of [predict] that leaves [sample_rate] out is the call with
    [sample_rate = 16000]: the default of the parameter is the integer 16000,
    so the parameter is bound to 16000 when the argument is left out and to
    the argument when it is given, and for every instance, wave and store
    both calls end alike. *)
Theorem predict_default_sample_rate (h : heap) (self : loc) (wave : value) :
  BaseModel.sample_rate_default = VInt 16000
  ∧ default BaseModel.sample_rate_default None = VInt 16000
  ∧ default BaseModel.sample_rate_default (Some (VInt 16000))
    = default BaseModel.sample_rate_default None
  ∧ (∀ v : value, default BaseModel.sample_rate_default (Some v) = v)
  ∧ BaseModel.call_predict self wave None = BaseModel.predict self wave (VInt 16000)
  ∧ run (BaseModel.call_predict self wave None) h
    = run (BaseModel.call_predict self wave (Some (VInt 16000))) h.
Proof. repeat (split; [reflexivity|]). reflexivity. Qed.

(** ** Running [__init__] again, and several instances *)

Lemma setattr_live (h : heap) (self : loc) (o : object) (name : string) (v : value) :
  h !! self = Some o →
  run (setattr self name v) h
  = (Ok tt, <[self := mk_object (obj_class o) (<[name := v]> (obj_dict o))]> h).
Proof.
  intros Hself. unfold run, setattr. f_equal.
  apply map_eq. intros l. destruct (decide (self = l)) as [<-|Hne].
  - by rewrite lookup_alter_eq, lookup_insert_eq, Hself.
  - by rewrite lookup_alter_ne, lookup_insert_ne.
Qed.

(** [BaseModel.__init__] run a second time, on an instance of one of the
    three classes of the package that is already in the store (such an
    instance has a [__dict__]), returns [None] and does not raise; the
    instance keeps its class, its [path] becomes the argument, its other
    attributes stay, and every other object of the store is untouched. *)
Theorem init_on_live_instance
    (h : heap) (self : loc) (o : object) (path_to_model : value) :
  h !! self = Some o →
  ∃ o' : object,
    run (BaseModel.__init__ self path_to_model) h = (Ok VNone, <[self := o']> h)
    ∧ obj_class o' = obj_class o
    ∧ obj_dict o' !! "path" = Some path_to_model
    ∧ delete "path" (obj_dict o') = delete "path" (obj_dict o)
    ∧ delete self (<[self := o']> h) = delete self h.
Proof.
  intros Hself.
  exists (mk_object (obj_class o) (<["path" := path_to_model]> (obj_dict o))).
  unfold BaseModel.__init__. rewrite run_bind, (setattr_live h self o) by done.
  simpl. split; [done|]. split; [done|].
  split; [apply lookup_insert_eq|].
  split; [apply delete_insert_eq|apply delete_insert_eq].
Qed.

Lemma init_on_live_instance_witness :
  let o := mk_object ClsBaseModel {[ "path" := VStr "a"; "rate" := VInt 8000 ]} in
  let h : gmap positive object := {[ 1%positive := o ]} in
  h !! 1%positive = Some o
  ∧ ∃ o' : object,
      run (BaseModel.__init__ 1 (VStr "b")) h = (Ok VNone, <[1%positive := o']> h)
      ∧ obj_class o' = obj_class o
      ∧ obj_dict o' !! "path" = Some (VStr "b")
      ∧ delete "path" (obj_dict o') = delete "path" (obj_dict o)
      ∧ delete 1%positive (<[1%positive := o']> h) = delete 1%positive h.
Proof.
  intros o h. split; [reflexivity|].
  apply (init_on_live_instance h 1 o (VStr "b")). reflexivity.
Defined.

Lemma run_init (h : heap) (self : loc) (v : value) :
  run (BaseModel.__init__ self v) h
  = (Ok VNone,
     alter (fun o => mk_object (obj_class o) (<["path" := v]> (obj_dict o))) self h).
Proof. reflexivity. Qed.

(** The last initialisation wins: running [BaseModel.__init__] with [p] and
    then with [q] on one reference leaves the store that running it with [q]
    alone leaves, and returns the same. *)
Theorem init_twice_last_wins (h : heap) (self : loc) (p q : value) :
  run (_ ← BaseModel.__init__ self p; BaseModel.__init__ self q) h
  = run (BaseModel.__init__ self q) h.
Proof.
  rewrite run_bind, run_init. cbn beta iota. rewrite !run_init. f_equal.
  rewrite alter_alter_eq. apply alter_ext. intros o _. simpl.
  by rewrite insert_insert_eq.
Qed.

(** Two models built one after the other are two objects: the references
    differ and each instance holds the path it was given, so building the
    second leaves the first one's path alone. *)
Theorem two_models_are_independent (h : heap) (p q : value) :
  ∃ (a b : loc) (h2 : heap),
    run (a ← BaseModel.new p; b ← BaseModel.new q; mret (a, b)) h = (Ok (a, b), h2)
    ∧ (a =? b)%positive = false
    ∧ getattr_of h2 a "path" = Some p
    ∧ getattr_of h2 b "path" = Some q.
Proof.
  set (a := fresh (dom h)).
  set (h1 := <[a := mk_object ClsBaseModel {[ "path" := p ]}]> h).
  set (b := fresh (dom h1)).
  exists a, b, (<[b := mk_object ClsBaseModel {[ "path" := q ]}]> h1).
  assert (a ≠ b) as Hab.
  { intros Heq. pose proof (new_object_fresh h1) as Hb. fold b in Hb.
    rewrite <- Heq in Hb. unfold h1 in Hb. by rewrite lookup_insert_eq in Hb. }
  split.
  { rewrite run_bind, run_BaseModel_new. fold a h1. cbn beta iota.
    rewrite run_bind, run_BaseModel_new. by fold b. }
  split; [by apply Pos.eqb_neq|].
  split.
  - unfold getattr_of. rewrite lookup_insert_ne by done. unfold h1.
    rewrite lookup_insert_eq. simpl. apply lookup_singleton_eq.
  - by rewrite getattr_of_insert, lookup_singleton_eq.
Qed.

(** ** The store only grows *)

Lemma step_grows (h : heap) (o : op) :
  h ⊆ snd (run (step o) h)
  ∧ size (snd (run (step o) h)) = size h + (if is_construction o then 1 else 0).
Proof.
  pose proof (new_object_fresh h) as Hfresh.
  destruct o as [p| | |self wave sr|self wave|self data]; unfold step.
  - rewrite run_bind, run_BaseModel_new. simpl.
    split; [by apply insert_subseteq|]. rewrite map_size_insert_None by done. lia.
  - rewrite run_bind, run_BasePreprocess_new. simpl.
    split; [by apply insert_subseteq|]. rewrite map_size_insert_None by done. lia.
  - rewrite run_bind, run_BasePostprocess_new. simpl.
    split; [by apply insert_subseteq|]. rewrite map_size_insert_None by done. lia.
  - rewrite run_call_predict. simpl. split; [done|lia].
  - rewrite run_pre_process. simpl. split; [done|lia].
  - rewrite run_post_process. simpl. split; [done|lia].
Qed.

(** Whatever a client does with the package, in whatever order and with
    whatever arguments, no object is removed or changed: the store at the end
    extends the store at the start, and it holds exactly one more object per
    constructor call; the calls of [predict] and [process] add none. *)
Theorem store_only_grows (ops : list op) (h : heap) :
  h ⊆ exec ops h ∧ size (exec ops h) = size h + constructions ops.
Proof.
  revert h. induction ops as [|o ops IH]; intros h.
  - simpl. split; [done|lia].
  - destruct (step_grows h o) as [Hsub Hsize].
    destruct (IH (snd (run (step o) h))) as [IHsub IHsize].
    change (exec (o :: ops) h) with (exec ops (snd (run (step o) h))).
    split; [by etrans|]. rewrite IHsize, Hsize. simpl. lia.
Qed.
